(** * Groupe Scout Ouragan: a model of the React front end (src/frontend/src/App.js)

    Each React component is a record of its [useState] cells; each event
    handler is a function from the component state (and, for asynchronous
    handlers, the outcome of the awaited HTTP call) to the next state and the
    list of side effects it performs, in program order. *)

From Stdlib Require Import String Ascii List Bool Arith Lia Permutation DecimalNat.
Import ListNotations.
Open Scope string_scope.
Open Scope list_scope.

(** ** Side effects observable outside a component *)

Inductive method := GET | POST | PUT | DELETE.

(** JSON request bodies sent by the admin forms. *)
Inductive payload :=
  | NoBody
  | MemberData (nom prenom : string) (age : option nat) (branch : string)
      (* [age] is [parseInt(formData.age)]: [None] stands for NaN *)
  | ActivityData (titre description date_activite : string)
      (branch organ : option string) (lieu : string)
  | ProjectData (titre contenu : string).

Inductive effect :=
  | Http (m : method) (path : string) (body : payload)  (* an axios call, path below `${API}` *)
  | Log (msg : string)                  (* console.error *)
  | Confirm (msg : string)              (* window.confirm prompt *)
  | Alert (msg : string)                (* window.alert *)
  | Refresh.                            (* the [onUpdate] callback *)

(** Effects that show an error or a status message to the user. *)
Definition user_visible (e : effect) : bool :=
  match e with Alert _ => true | _ => false end.

(** Outcome of an awaited axios promise: resolved with a value or rejected
    (non-2xx status or transport failure, which axios does not distinguish
    for the callers below). *)
Inductive outcome (A : Type) := Resolved (a : A) | Rejected.
Arguments Resolved {A} a.
Arguments Rejected {A}.

(** JavaScript truthiness of a [string | null] ([!!token]). *)
Definition truthy (s : option string) : bool :=
  match s with Some v => negb (String.eqb v "") | None => false end.

(** ** Session state: [localStorage], [AuthProvider] and the root [App] *)

Module Session.

(** The three places that hold session data: the [adminToken] key of
    [localStorage], the two [useState] cells of [AuthProvider], and the two
    [useState] cells of [App]. *)
Record state := mk {
  storage : option string;   (* localStorage.getItem('adminToken') *)
  prov_token : option string; (* AuthProvider: token *)
  prov_auth : bool;           (* AuthProvider: isAuthenticated *)
  view : string;              (* App: view *)
  root_auth : bool            (* App: isAuthenticated *)
}.

(** First render, from whatever [localStorage] holds. *)
Definition init (stored : option string) : state :=
  {| storage := stored;
     prov_token := stored; prov_auth := truthy stored;
     view := "public"; root_auth := truthy stored |}.

(** [AuthProvider.login] *)
Definition provider_login (newToken : string) (s : state) : state :=
  {| storage := Some newToken;
     prov_token := Some newToken; prov_auth := true;
     view := view s; root_auth := root_auth s |}.

(** [AuthProvider.logout] *)
Definition provider_logout (s : state) : state :=
  {| storage := None;
     prov_token := None; prov_auth := false;
     view := view s; root_auth := root_auth s |}.

(** [App.handleAdminClick] *)
Definition handleAdminClick (s : state) : state :=
  {| storage := storage s;
     prov_token := prov_token s; prov_auth := prov_auth s;
     view := "login"; root_auth := root_auth s |}.

(** [App.handleLogin] *)
Definition handleLogin (token : string) (s : state) : state :=
  {| storage := Some token;
     prov_token := prov_token s; prov_auth := prov_auth s;
     view := "admin"; root_auth := true |}.

(** [App.handleLogout] *)
Definition handleLogout (s : state) : state :=
  {| storage := None;
     prov_token := prov_token s; prov_auth := prov_auth s;
     view := "public"; root_auth := false |}.

(** Top-level components rendered by [App]. *)
Inductive component := PublicHome | AdminLogin | AdminDashboard.

Definition render (s : state) : list component :=
  (if String.eqb (view s) "public" then [PublicHome] else []) ++
  (if String.eqb (view s) "login" then [AdminLogin] else []) ++
  (if String.eqb (view s) "admin" && root_auth s then [AdminDashboard] else []).

(** User events of the running application. Each one is wired to the
    handler the JSX attaches to it:
    - the "Espace Admin" button of [Header] (inside [PublicHome]) calls
      [onAdminClick] = [App.handleAdminClick];
    - a resolved login request in [AdminLogin] calls [onLogin] =
      [App.handleLogin] with the issued token;
    - the "Déconnexion" button of [AdminDashboard] calls [logout] obtained
      from [useAuth()], i.e. [AuthProvider.logout]; the [onLogout] prop that
      [App] passes is not read by [AdminDashboard]. *)
Inductive event :=
  | ClickAdmin
  | LoginResolved (token : string)
  | ClickLogout.

Definition enabled (e : event) (s : state) : bool :=
  match e with
  | ClickAdmin => existsb (fun c => match c with PublicHome => true | _ => false end) (render s)
  | LoginResolved _ => existsb (fun c => match c with AdminLogin => true | _ => false end) (render s)
  | ClickLogout => existsb (fun c => match c with AdminDashboard => true | _ => false end) (render s)
  end.

Definition handle (e : event) (s : state) : state :=
  match e with
  | ClickAdmin => handleAdminClick s
  | LoginResolved t => handleLogin t s
  | ClickLogout => provider_logout s
  end.

(** Run a sequence of events, skipping those whose button is not on screen. *)
Fixpoint run (es : list event) (s : state) : state :=
  match es with
  | [] => s
  | e :: es' => run es' (if enabled e s then handle e s else s)
  end.

End Session.

(** ** Entities, as the JSON the backend returns *)

Record Member := mkMember {
  m_id : string; nom : string; prenom : string; age : nat; m_branch : string }.

Record Activity := mkActivity {
  a_id : string; a_titre : string; description : string;
  date_activite : string; a_branch : option string; organ : option string;
  lieu : option string }.

Record Branch := mkBranch {
  b_type : string; b_name : string; age_range : string; b_description : string }.

Record Organ := mkOrgan { o_type : string; o_name : string; o_description : string }.

Record Project := mkProject { titre : string; contenu : string }.

(** ** [BranchCard] *)

Module BranchCard.

Record state := mk {
  showMembers : bool;
  showActivities : bool;
  members : list Member;
  branchActivities : list Activity }.

Definition init : state := mk false false [] [].

(** [loadMembers], the [onClick] of the "Voir / Masquer les membres" button. *)
Definition loadMembers (branch : Branch) (r : outcome (list Member)) (s : state)
  : state * list effect :=
  let call := Http GET ("/members/" ++ b_type branch) NoBody in
  match r with
  | Resolved data =>
      (mk true (showActivities s) data (branchActivities s), [call])
  | Rejected =>
      (s, [call; Log "Erreur lors du chargement des membres:"])
  end.

(** [loadActivities], the [onClick] of the "Voir / Masquer les activités" button. *)
Definition loadActivities (branch : Branch) (r : outcome (list Activity)) (s : state)
  : state * list effect :=
  let call := Http GET ("/activities/" ++ b_type branch) NoBody in
  match r with
  | Resolved data =>
      (mk (showMembers s) true (members s) data, [call])
  | Rejected =>
      (s, [call; Log "Erreur lors du chargement des activités:"])
  end.

(** The label the members button shows. *)
Definition membersLabel (s : state) : string :=
  if showMembers s then "Masquer les membres" else "Voir les membres".

(** Successive clicks on the members button; the i-th click is answered by
    the i-th response. The effects of all clicks are concatenated. *)
Fixpoint clickMembers (branch : Branch) (rs : list (outcome (list Member))) (s : state)
  : state * list effect :=
  match rs with
  | [] => (s, [])
  | r :: rs' =>
      let (s1, e1) := loadMembers branch r s in
      let (s2, e2) := clickMembers branch rs' s1 in
      (s2, e1 ++ e2)
  end.

Fixpoint clickActivities (branch : Branch) (rs : list (outcome (list Activity))) (s : state)
  : state * list effect :=
  match rs with
  | [] => (s, [])
  | r :: rs' =>
      let (s1, e1) := loadActivities branch r s in
      let (s2, e2) := clickActivities branch rs' s1 in
      (s2, e1 ++ e2)
  end.

Definition is_fetch (e : effect) : bool :=
  match e with Http GET _ _ => true | _ => false end.

End BranchCard.

(** ** [PublicHome] *)

Module PublicHome.

(** A JavaScript object used as a map from branch key to count. *)
Definition counts := list (string * nat).

Fixpoint lookup (k : string) (o : counts) : option nat :=
  match o with
  | [] => None
  | (k', v) :: o' => if String.eqb k k' then Some v else lookup k o'
  end.

Record state := mk {
  branches : list Branch;
  organs : list Organ;
  memberCounts : counts;
  project : option Project;
  recentActivities : list Activity }.

Definition init : state := mk [] [] [] None [].

(** [members.filter(m => m.branch === key).length] *)
Definition count_branch (key : string) (members : list Member) : nat :=
  length (filter (fun m => String.eqb (m_branch m) key) members).

Definition compute_counts (members : list Member) : counts :=
  [("meute", count_branch "meute" members);
   ("troupe", count_branch "troupe" members);
   ("compagnie", count_branch "compagnie" members);
   ("clan", count_branch "clan" members)].

(** [Array.prototype.slice(0, n)] *)
Definition slice0 {A} (n : nat) (l : list A) : list A := firstn n l.

(** [loadData]: four awaited requests in one [try]; the first rejection
    skips the rest and is logged. *)
Definition loadData
  (rb : outcome (list Branch * list Organ)) (rm : outcome (list Member))
  (rp : outcome Project) (ra : outcome (list Activity)) (s : state)
  : state * list effect :=
  let err := Log "Erreur lors du chargement des données:" in
  match rb with
  | Rejected => (s, [Http GET "/branches" NoBody; err])
  | Resolved (bs, os) =>
    let s1 := mk bs os (memberCounts s) (project s) (recentActivities s) in
    match rm with
    | Rejected => (s1, [Http GET "/branches" NoBody; Http GET "/members" NoBody; err])
    | Resolved members =>
      let s2 := mk bs os (compute_counts members) (project s1) (recentActivities s1) in
      match rp with
      | Rejected => (s2, [Http GET "/branches" NoBody; Http GET "/members" NoBody; Http GET "/project" NoBody; err])
      | Resolved p =>
        let s3 := mk bs os (memberCounts s2) (Some p) (recentActivities s2) in
        match ra with
        | Rejected => (s3, [Http GET "/branches" NoBody; Http GET "/members" NoBody; Http GET "/project" NoBody;
                            Http GET "/activities" NoBody; err])
        | Resolved acts =>
          (mk bs os (memberCounts s3) (project s3) (slice0 5 acts),
           [Http GET "/branches" NoBody; Http GET "/members" NoBody; Http GET "/project" NoBody; Http GET "/activities" NoBody])
        end
      end
    end
  end.

(** [memberCounts[branch.type] || 0], the [memberCount] prop of a [BranchCard]. *)
Definition memberCount (s : state) (branch : Branch) : nat :=
  match lookup (b_type branch) (memberCounts s) with
  | Some n => n
  | None => 0
  end.

(** The branch cards: one per fetched branch with its displayed count. *)
Definition render_branch_cards (s : state) : list (Branch * nat) :=
  map (fun b => (b, memberCount s b)) (branches s).

(** The recent-activities section: [recentActivities.map(...)]. *)
Definition render_recent (s : state) : list Activity := recentActivities s.

End PublicHome.

(** ** [AdminLogin] *)

Module AdminLogin.

Record state := mk {
  username : string; password : string; loading : bool; error : string }.

Definition init : state := mk "" "" false "".

Definition error_message : string := "Nom d'utilisateur ou mot de passe incorrect".

(** [handleLogin] up to the [await]: [setLoading(true); setError('')]. *)
Definition handleLogin_start (s : state) : state :=
  mk (username s) (password s) true "".

(** [handleLogin] after the [await] of [POST /auth/login]: on success
    [onLogin(access_token)] (wired by [App] to [App.handleLogin]), on
    rejection [setError(...)]; in both cases [setLoading(false)]. *)
Definition handleLogin_settle (r : outcome string) (s : state) (app : Session.state)
  : state * Session.state :=
  match r with
  | Resolved token => (mk (username s) (password s) false (error s), Session.handleLogin token app)
  | Rejected => (mk (username s) (password s) false error_message, app)
  end.

(** The red banner: [{error && <div>{error}</div>}]. *)
Definition banner (s : state) : option string :=
  if String.eqb (error s) "" then None else Some (error s).

(** The submit button: [disabled={loading}]. *)
Definition submittable (s : state) : bool := negb (loading s).

End AdminLogin.

(** [parseInt] on the decimal digits the number input produces; [None] is NaN. *)
Fixpoint parse_digits (s : string) (acc : option nat) : option nat :=
  match s with
  | EmptyString => acc
  | String c rest =>
      let n := nat_of_ascii c in
      if (Nat.leb 48 n) && (Nat.leb n 57)
      then parse_digits rest (Some ((match acc with Some a => a | None => 0 end * 10 + (n - 48))%nat))
      else acc
  end.

Definition parseInt (s : string) : option nat := parse_digits s None.

(** [Number.prototype.toString()] on a non-negative integer: its decimal
    digits, most significant first. *)
Fixpoint uint_to_string (d : Decimal.uint) : string :=
  match d with
  | Decimal.Nil => ""
  | Decimal.D0 d => String "0" (uint_to_string d)
  | Decimal.D1 d => String "1" (uint_to_string d)
  | Decimal.D2 d => String "2" (uint_to_string d)
  | Decimal.D3 d => String "3" (uint_to_string d)
  | Decimal.D4 d => String "4" (uint_to_string d)
  | Decimal.D5 d => String "5" (uint_to_string d)
  | Decimal.D6 d => String "6" (uint_to_string d)
  | Decimal.D7 d => String "7" (uint_to_string d)
  | Decimal.D8 d => String "8" (uint_to_string d)
  | Decimal.D9 d => String "9" (uint_to_string d)
  end.

Definition nat_toString (n : nat) : string := uint_to_string (Nat.to_uint n).

(** ** [MembersManagement] *)

Module MembersManagement.

Record form := mkForm { f_nom : string; f_prenom : string; f_age : string; f_branch : string }.

Definition empty_form : form := mkForm "" "" "" "meute".

Record state := mk {
  showForm : bool; editingMember : option Member; formData : form }.

Definition reset (s : state) : state := mk false None empty_form.

(** [handleSubmit] with the outcome of the awaited PUT or POST. *)
Definition handleSubmit (r : outcome unit) (s : state) : state * list effect :=
  let f := formData s in
  let memberData := MemberData (f_nom f) (f_prenom f) (parseInt (f_age f)) (f_branch f) in
  let call := match editingMember s with
              | Some m => Http PUT ("/admin/members/" ++ m_id m) memberData
              | None => Http POST "/admin/members" memberData
              end in
  match r with
  | Resolved _ => (reset s, [call; Refresh])
  | Rejected => (s, [call; Log "Erreur:"])
  end.

Definition confirm_msg : string := "Êtes-vous sûr de vouloir supprimer ce membre ?".

(** [handleDelete]: [confirmed] is the answer to [window.confirm]; [r] the
    outcome of the DELETE, consulted only when the call is issued. *)
Definition handleDelete (memberId : string) (confirmed : bool) (r : outcome unit)
  (s : state) : state * list effect :=
  if confirmed then
    let call := Http DELETE ("/admin/members/" ++ memberId) NoBody in
    match r with
    | Resolved _ => (s, [Confirm confirm_msg; call; Refresh])
    | Rejected => (s, [Confirm confirm_msg; call; Log "Erreur:"])
    end
  else (s, [Confirm confirm_msg]).

(** [handleEdit]: pre-fill the form from the member and open it. *)
Definition handleEdit (member : Member) (s : state) : state :=
  mk true (Some member)
     (mkForm (nom member) (prenom member) (nat_toString (age member)) (m_branch member)).



End MembersManagement.

(** ** [ActivitiesManagement] *)

Module ActivitiesManagement.

Record form := mkForm {
  f_titre : string; f_description : string; f_date_activite : string;
  f_branch : string; f_organ : string; f_lieu : string }.

Definition empty_form : form := mkForm "" "" "" "" "" "".

Record state := mk {
  showForm : bool; editingActivity : option Activity; formData : form }.

Definition reset (s : state) : state := mk false None empty_form.

(** [x || null] on a form string. *)
Definition or_null (x : string) : option string :=
  if String.eqb x "" then None else Some x.

(** [handleSubmit]. [toISOString] is [new Date(d).toISOString()]; it yields
    [None] where it throws (an invalid date), which the [try] catches before
    any request is made. *)
Definition handleSubmit (toISOString : string -> option string) (r : outcome unit)
  (s : state) : state * list effect :=
  let f := formData s in
  match toISOString (f_date_activite f) with
  | None => (s, [Log "Erreur:"])
  | Some iso =>
    let activityData := ActivityData (f_titre f) (f_description f) iso
                          (or_null (f_branch f)) (or_null (f_organ f)) (f_lieu f) in
    let call := match editingActivity s with
                | Some a => Http PUT ("/admin/activities/" ++ a_id a) activityData
                | None => Http POST "/admin/activities" activityData
                end in
    match r with
    | Resolved _ => (reset s, [call; Refresh])
    | Rejected => (s, [call; Log "Erreur:"])
    end
  end.

Definition confirm_msg : string := "Êtes-vous sûr de vouloir supprimer cette activité ?".

Definition handleDelete (activityId : string) (confirmed : bool) (r : outcome unit)
  (s : state) : state * list effect :=
  if confirmed then
    let call := Http DELETE ("/admin/activities/" ++ activityId) NoBody in
    match r with
    | Resolved _ => (s, [Confirm confirm_msg; call; Refresh])
    | Rejected => (s, [Confirm confirm_msg; call; Log "Erreur:"])
    end
  else (s, [Confirm confirm_msg]).

(** [x || ''] on an optional string field. *)
Definition or_empty (x : option string) : string :=
  match x with Some v => v | None => "" end.

(** [str.split('T')[0]]: the part before the first 'T'. *)
Fixpoint before_T (str : string) : string :=
  match str with
  | EmptyString => ""
  | String c rest => if Ascii.eqb c "T"%char then "" else String c (before_T rest)
  end.

(** [handleEdit]. [setEditingActivity(activity)] runs first; when
    [toISOString] throws (an invalid stored date) the handler stops there,
    so only [editingActivity] has changed. *)
Definition handleEdit (toISOString : string -> option string) (activity : Activity)
  (s : state) : state :=
  match toISOString (date_activite activity) with
  | None => mk (showForm s) (Some activity) (formData s)
  | Some iso =>
      mk true (Some activity)
         (mkForm (a_titre activity) (description activity) (before_T iso)
                 (or_empty (a_branch activity)) (or_empty (organ activity))
                 (or_empty (lieu activity)))
  end.

End ActivitiesManagement.

(** ** [ProjectManagement] *)

Module ProjectManagement.

Record state := mk { formData : Project; loading : bool }.

Definition success_msg : string := "Projet pédagogique mis à jour avec succès !".
Definition failure_msg : string := "Erreur lors de la mise à jour".

(** [handleSubmit]: [setLoading(true)], PUT the form, then [onUpdate()] and a
    success alert, or a log and a failure alert; [setLoading(false)] last. *)
Definition handleSubmit (r : outcome unit) (s : state) : state * list effect :=
  let f := formData s in
  let call := Http PUT "/admin/project" (ProjectData (titre f) (contenu f)) in
  match r with
  | Resolved _ => (mk f false, [call; Refresh; Alert success_msg])
  | Rejected => (mk f false, [call; Log "Erreur:"; Alert failure_msg])
  end.


End ProjectManagement.

(** ** [AdminDashboard] *)

Module AdminDashboard.

Record state := mk {
  activeTab : string;
  stats : option PublicHome.counts;   (* [stats.members_by_branch], or [null] *)
  members : list Member;
  activities : list Activity;
  project : Project }.

Definition init : state := mk "dashboard" None [] [] (mkProject "" "").

(** The four loaders started by the mount effect. Each is an independent
    async function with its own [try]; the Authorization header of
    [loadStats] is not part of the model. *)
Definition loadStats (r : outcome PublicHome.counts) (s : state) : state * list effect :=
  let call := Http GET "/admin/stats" NoBody in
  match r with
  | Resolved d => (mk (activeTab s) (Some d) (members s) (activities s) (project s), [call])
  | Rejected => (s, [call; Log "Erreur stats:"])
  end.

Definition loadMembers (r : outcome (list Member)) (s : state) : state * list effect :=
  let call := Http GET "/members" NoBody in
  match r with
  | Resolved d => (mk (activeTab s) (stats s) d (activities s) (project s), [call])
  | Rejected => (s, [call; Log "Erreur membres:"])
  end.

Definition loadActivities (r : outcome (list Activity)) (s : state) : state * list effect :=
  let call := Http GET "/activities" NoBody in
  match r with
  | Resolved d => (mk (activeTab s) (stats s) (members s) d (project s), [call])
  | Rejected => (s, [call; Log "Erreur activités:"])
  end.

Definition loadProject (r : outcome Project) (s : state) : state * list effect :=
  let call := Http GET "/project" NoBody in
  match r with
  | Resolved d => (mk (activeTab s) (stats s) (members s) (activities s) d, [call])
  | Rejected => (s, [call; Log "Erreur projet:"])
  end.

(** The completion of one loader, with the response it received. *)
Inductive completion :=
  | CStats (r : outcome PublicHome.counts)
  | CMembers (r : outcome (list Member))
  | CActivities (r : outcome (list Activity))
  | CProject (r : outcome Project).

Definition kind (c : completion) : nat :=
  match c with CStats _ => 0 | CMembers _ => 1 | CActivities _ => 2 | CProject _ => 3 end.

Definition complete (c : completion) (s : state) : state :=
  match c with
  | CStats r => fst (loadStats r s)
  | CMembers r => fst (loadMembers r s)
  | CActivities r => fst (loadActivities r s)
  | CProject r => fst (loadProject r s)
  end.

(** Completions applied in the order the responses arrive. *)
Fixpoint run (cs : list completion) (s : state) : state :=
  match cs with
  | [] => s
  | c :: cs' => run cs' (complete c s)
  end.

(** The value an [outcome] leaves in a cell that started at [d]. *)
Definition or_keep {A} (r : outcome A) (d : A) : A :=
  match r with Resolved a => a | Rejected => d end.

End AdminDashboard.

(** ** Rendering the pedagogical project *)

Definition newline : ascii := Ascii.ascii_of_nat 10.

(** [String.prototype.split('\n')]: the segments between newlines, empty ones
    included; the empty string splits into one empty segment. *)
Fixpoint split_nl (s : string) : list string :=
  match s with
  | EmptyString => [""]
  | String c rest =>
      if Ascii.eqb c newline then "" :: split_nl rest
      else match split_nl rest with
           | [] => [String c ""]
           | x :: xs => String c x :: xs
           end
  end.

(** [{project && ... project.contenu.split('\n').map(p => <p>{p}</p>)}]:
    the title and the paragraphs of the project section. *)
Definition render_project (s : PublicHome.state) : option (string * list string) :=
  match PublicHome.project s with
  | Some p => Some (titre p, split_nl (contenu p))
  | None => None
  end.

(** Modelled from the spec: the backend's storage of the pedagogical project
    (the backend is not part of src/). [PUT /admin/project] with body
    [{titre, contenu}] replaces the singleton project, which [GET /project]
    returns; other requests leave it unchanged. *)
Definition backend_project_apply (db : Project) (e : effect) : Project :=
  match e with
  | Http PUT "/admin/project" (ProjectData t c) => mkProject t c
  | _ => db
  end.

Definition backend_project_run (effs : list effect) (db : Project) : Project :=
  fold_left backend_project_apply effs db.

(** ** Tests on concrete inputs *)

Example split_nl_two : split_nl ("A" ++ String newline "B") = ["A"; "B"].
Proof. reflexivity. Qed.

Example split_nl_empty_segment :
  split_nl (String newline (String newline "")) = [""; ""; ""].
Proof. reflexivity. Qed.

Example parseInt_10 : parseInt "10" = Some 10%nat.
Proof. reflexivity. Qed.

Example count_example :
  PublicHome.count_branch "meute"
    [mkMember "1" "Dupont" "Jean" 10 "meute"; mkMember "2" "Martin" "Paul" 12 "troupe";
     mkMember "3" "Durand" "Luc" 9 "meute"] = 2%nat.
Proof. reflexivity. Qed.

(** ** General lemmas *)

Lemma split_nl_not_nil (s : string) : split_nl s <> [].
Proof.
  induction s as [|c rest IH]; simpl; [discriminate|].
  destruct (Ascii.eqb c newline); [discriminate|].
  destruct (split_nl rest); [contradiction|discriminate].
Qed.

Lemma concat_cons_char (sep x : string) (c : ascii) (xs : list string) :
  String.concat sep (String c x :: xs) = String c (String.concat sep (x :: xs)).
Proof. destruct xs; reflexivity. Qed.

Lemma split_nl_concat (s : string) :
  String.concat (String newline "") (split_nl s) = s.
Proof.
  induction s as [|c rest IH]; [reflexivity|].
  simpl. destruct (Ascii.eqb c newline) eqn:E.
  - apply Ascii.eqb_eq in E; subst c.
    pose proof (split_nl_not_nil rest) as Hn.
    destruct (split_nl rest) as [|x xs]; [contradiction|].
    change (String.concat (String newline "") ("" :: x :: xs))
      with (String newline (String.concat (String newline "") (x :: xs))).
    rewrite IH. reflexivity.
  - pose proof (split_nl_not_nil rest) as Hn.
    destruct (split_nl rest) as [|x xs]; [contradiction|].
    rewrite concat_cons_char, IH. reflexivity.
Qed.

(** No rendered paragraph contains a newline. *)
Lemma split_nl_no_newline (s : string) :
  Forall (fun p => forall n, String.get n p <> Some newline) (split_nl s).
Proof.
  induction s as [|c rest IH]; simpl.
  - constructor; [intros n; destruct n; discriminate | constructor].
  - destruct (Ascii.eqb c newline) eqn:E.
    + constructor; [intros n; destruct n; discriminate | exact IH].
    + destruct (split_nl rest) as [|x xs]; [constructor; [|constructor]|].
      * intros [|n]; simpl; [|destruct n; discriminate].
        intros H; injection H as H; subst; rewrite Ascii.eqb_refl in E; discriminate.
      * inversion IH as [|? ? Hx Hxs]; subst. constructor; [|exact Hxs].
        intros [|n]; simpl; [|apply Hx].
        intros H; injection H as H; subst; rewrite Ascii.eqb_refl in E; discriminate.
Qed.

(** ** Claims *)

(** C1 (code_bug). The session token and the authenticated flags diverge on
    the application's own login and logout paths. Starting with an empty
    [localStorage], clicking "Espace Admin" and logging in with token "t"
    stores "t" and sets [App]'s flag, but leaves [AuthProvider]'s token
    [null] and its flag [false]; clicking "Déconnexion" then clears the
    storage and [AuthProvider], while [App]'s flag stays [true]. *)
Theorem session_paths_diverge :
  let s1 := Session.run [Session.ClickAdmin; Session.LoginResolved "t"] (Session.init None) in
  let s2 := Session.run [Session.ClickLogout] s1 in
  Session.storage s1 = Some "t" /\ Session.root_auth s1 = true /\
  Session.prov_token s1 = None /\ Session.prov_auth s1 = false /\
  Session.storage s2 = None /\ Session.prov_auth s2 = false /\
  Session.root_auth s2 = true.
Proof. vm_compute. repeat split. Qed.

(** C2 (code_bug). Clicking a branch's members button twice issues two
    fetches of that branch's list and leaves the list shown: the click
    handler always fetches and always sets [showMembers] to [true]. The
    same holds for the activities button. *)
Theorem branch_toggle_refetches (branch : Branch) (s : BranchCard.state)
  (ms1 ms2 : list Member) (as1 as2 : list Activity) :
  let (sm, em) := BranchCard.clickMembers branch [Resolved ms1; Resolved ms2] s in
  let (sa, ea) := BranchCard.clickActivities branch [Resolved as1; Resolved as2] s in
  BranchCard.showMembers sm = true /\
  em = [Http GET ("/members/" ++ b_type branch) NoBody;
        Http GET ("/members/" ++ b_type branch) NoBody] /\
  BranchCard.showActivities sa = true /\
  ea = [Http GET ("/activities/" ++ b_type branch) NoBody;
        Http GET ("/activities/" ++ b_type branch) NoBody].
Proof. simpl. repeat split. Qed.

(** C3 (code_bug). The logout button of the admin dashboard runs
    [AuthProvider.logout] only: the stored token and [AuthProvider]'s flag
    are cleared, but [App]'s view stays "admin" and [App]'s flag stays
    [true], so the dashboard is still rendered. *)
Theorem dashboard_logout_keeps_admin_view :
  let s1 := Session.run [Session.ClickAdmin; Session.LoginResolved "t"] (Session.init None) in
  let s2 := Session.run [Session.ClickLogout] s1 in
  Session.render s1 = [Session.AdminDashboard] /\
  Session.storage s2 = None /\ Session.prov_auth s2 = false /\
  Session.view s2 = "admin" /\ Session.root_auth s2 = true /\
  Session.render s2 = [Session.AdminDashboard].
Proof. vm_compute. repeat split. Qed.

(** C4, counterexample. A failed project update shows an alert to the user:
    the entity-management paths are not all silent on failure. *)
Lemma project_failure_alerts :
  let s := ProjectManagement.mk (mkProject "X" "A") false in
  existsb user_visible (snd (ProjectManagement.handleSubmit Rejected s)) = true.
Proof. reflexivity. Qed.

(** C4 (amended). A failed member or activity create/update/delete is only
    logged: the component state, form included, is unchanged and nothing is
    shown to the user. A failed project update is logged, keeps the form
    data, and shows the alert "Erreur lors de la mise à jour". *)
Theorem mutation_failures_handling :
  (forall s : MembersManagement.state,
      fst (MembersManagement.handleSubmit Rejected s) = s /\
      existsb user_visible (snd (MembersManagement.handleSubmit Rejected s)) = false /\
      In (Log "Erreur:") (snd (MembersManagement.handleSubmit Rejected s))) /\
  (forall id s,
      fst (MembersManagement.handleDelete id true Rejected s) = s /\
      existsb user_visible (snd (MembersManagement.handleDelete id true Rejected s)) = false /\
      In (Log "Erreur:") (snd (MembersManagement.handleDelete id true Rejected s))) /\
  (forall toISO (s : ActivitiesManagement.state),
      fst (ActivitiesManagement.handleSubmit toISO Rejected s) = s /\
      existsb user_visible (snd (ActivitiesManagement.handleSubmit toISO Rejected s)) = false /\
      In (Log "Erreur:") (snd (ActivitiesManagement.handleSubmit toISO Rejected s))) /\
  (forall id s,
      fst (ActivitiesManagement.handleDelete id true Rejected s) = s /\
      existsb user_visible (snd (ActivitiesManagement.handleDelete id true Rejected s)) = false /\
      In (Log "Erreur:") (snd (ActivitiesManagement.handleDelete id true Rejected s))) /\
  (forall s : ProjectManagement.state,
      ProjectManagement.formData (fst (ProjectManagement.handleSubmit Rejected s))
        = ProjectManagement.formData s /\
      In (Log "Erreur:") (snd (ProjectManagement.handleSubmit Rejected s)) /\
      In (Alert ProjectManagement.failure_msg) (snd (ProjectManagement.handleSubmit Rejected s))).
Proof.
  repeat split; intros; simpl; auto 6;
    try (destruct (MembersManagement.editingMember s); simpl; auto; fail);
    try (unfold ActivitiesManagement.handleSubmit;
         destruct (toISO _); [destruct (ActivitiesManagement.editingActivity s)|];
         simpl; auto; fail).
Qed.

(** C5. Once [loadData] has fetched the member list, every branch card whose
    type is one of meute, troupe, compagnie, clan displays as its count the
    number of fetched members whose [branch] equals that type. *)
Theorem branch_counts_match (s : PublicHome.state) (bs : list Branch) (os : list Organ)
  (ms : list Member) (rp : outcome Project) (ra : outcome (list Activity))
  (b : Branch) (n : nat) :
  In (b_type b) ["meute"; "troupe"; "compagnie"; "clan"] ->
  In (b, n) (PublicHome.render_branch_cards
               (fst (PublicHome.loadData (Resolved (bs, os)) (Resolved ms) rp ra s))) ->
  n = PublicHome.count_branch (b_type b) ms.
Proof.
  intros Hk Hin.
  assert (Hm : forall st, In (b, n) (PublicHome.render_branch_cards st) ->
                          n = PublicHome.memberCount st b).
  { intros st H. unfold PublicHome.render_branch_cards in H.
    apply in_map_iff in H as [b' [Heq _]]. injection Heq as <- <-. reflexivity. }
  apply Hm in Hin. rewrite Hin.
  unfold PublicHome.memberCount.
  destruct rp as [p|], ra as [acts|]; simpl;
  destruct Hk as [<-|[<-|[<-|[<-|[]]]]]; reflexivity.
Qed.

Lemma branch_counts_match_witness :
  PublicHome.render_branch_cards
    (fst (PublicHome.loadData
            (Resolved ([mkBranch "meute" "Meute" "8-12" ""], []))
            (Resolved [mkMember "1" "Dupont" "Jean" 10 "meute";
                       mkMember "2" "Martin" "Paul" 12 "troupe"])
            Rejected Rejected PublicHome.init))
  = [(mkBranch "meute" "Meute" "8-12" "", 1%nat)] /\
  1%nat = PublicHome.count_branch "meute"
            [mkMember "1" "Dupont" "Jean" 10 "meute"; mkMember "2" "Martin" "Paul" 12 "troupe"].
Proof.
  split; [reflexivity|].
  apply (branch_counts_match PublicHome.init [mkBranch "meute" "Meute" "8-12" ""] []
           [mkMember "1" "Dupont" "Jean" 10 "meute"; mkMember "2" "Martin" "Paul" 12 "troupe"]
           Rejected Rejected (mkBranch "meute" "Meute" "8-12" "") 1%nat).
  - simpl. left. reflexivity.
  - simpl. left. reflexivity.
Defined.

(** C6 (backend storage modelled from the spec). After a successful project
    submission, reloading the public view renders the submitted title and
    one paragraph per newline-separated segment of the submitted content, in
    order: the paragraphs joined with newlines give back the content, and
    none of them contains a newline. *)
Theorem project_roundtrip (s : ProjectManagement.state) (db : Project)
  (bo : list Branch * list Organ) (ms : list Member) (ra : outcome (list Activity)) :
  let effs := snd (ProjectManagement.handleSubmit (Resolved tt) s) in
  let db' := backend_project_run effs db in
  let ph := fst (PublicHome.loadData (Resolved bo) (Resolved ms) (Resolved db') ra PublicHome.init) in
  let f := ProjectManagement.formData s in
  render_project ph = Some (titre f, split_nl (contenu f)) /\
  String.concat (String newline "") (split_nl (contenu f)) = contenu f /\
  Forall (fun p => forall i, String.get i p <> Some newline) (split_nl (contenu f)).
Proof.
  destruct s as [[t c] l]. destruct bo as [bs os].
  split; [|split; [apply split_nl_concat | apply split_nl_no_newline]].
  destruct ra; reflexivity.
Qed.

(** The scenario of the spec: content "A\nB" renders "A" then "B". *)
Example project_roundtrip_AB :
  let s := ProjectManagement.mk (mkProject "X" ("A" ++ String newline "B")) false in
  let effs := snd (ProjectManagement.handleSubmit (Resolved tt) s) in
  let db' := backend_project_run effs (mkProject "" "") in
  render_project (fst (PublicHome.loadData (Resolved ([], [])) (Resolved []) (Resolved db')
                         (Resolved []) PublicHome.init))
  = Some ("X", ["A"; "B"]).
Proof. reflexivity. Qed.

(** C7. A rejected login request (wrong credentials or transport failure
    alike) moves the login view from submitting to its error state: the
    fixed message is shown, the submit button is enabled again, and the
    session state ([localStorage], [AuthProvider], [App]) is unchanged, so
    an unauthenticated session stays unauthenticated. *)
Theorem login_rejected (s : AdminLogin.state) (app : Session.state) :
  let s1 := AdminLogin.handleLogin_start s in
  let (s2, app2) := AdminLogin.handleLogin_settle Rejected s1 app in
  AdminLogin.submittable s1 = false /\
  AdminLogin.banner s2 = Some AdminLogin.error_message /\
  AdminLogin.submittable s2 = true /\
  app2 = app /\
  Session.root_auth app2 = Session.root_auth app /\
  Session.prov_auth app2 = Session.prov_auth app.
Proof. simpl. repeat split. Qed.

(** C8. Deleting a member or an activity first asks for confirmation. If the
    user declines, no request is made, the refresh callback is not called,
    and the component state is unchanged; if the user confirms and the
    DELETE succeeds, the refresh callback is called. *)
Theorem delete_requires_confirmation :
  (forall id r (s : MembersManagement.state),
      MembersManagement.handleDelete id false r s = (s, [Confirm MembersManagement.confirm_msg]) /\
      MembersManagement.handleDelete id true (Resolved tt) s
        = (s, [Confirm MembersManagement.confirm_msg;
               Http DELETE ("/admin/members/" ++ id) NoBody; Refresh])) /\
  (forall id r (s : ActivitiesManagement.state),
      ActivitiesManagement.handleDelete id false r s = (s, [Confirm ActivitiesManagement.confirm_msg]) /\
      ActivitiesManagement.handleDelete id true (Resolved tt) s
        = (s, [Confirm ActivitiesManagement.confirm_msg;
               Http DELETE ("/admin/activities/" ++ id) NoBody; Refresh])).
Proof. split; intros; split; reflexivity. Qed.

(** C9. When every request of [loadData] succeeds, the recent-activities
    section shows the first five activities of the backend's list, in the
    backend's order, or the whole list when it is shorter. *)
Theorem recent_activities_first_five (s : PublicHome.state)
  (bo : list Branch * list Organ) (ms : list Member) (p : Project) (acts : list Activity) :
  let shown := PublicHome.render_recent
                 (fst (PublicHome.loadData (Resolved bo) (Resolved ms) (Resolved p) (Resolved acts) s)) in
  shown = firstn 5 acts /\
  (exists rest, acts = shown ++ rest) /\
  length shown = Nat.min 5 (length acts).
Proof.
  destruct bo as [bs os].
  change (PublicHome.render_recent
            (fst (PublicHome.loadData (Resolved (bs, os)) (Resolved ms) (Resolved p)
                    (Resolved acts) s))) with (firstn 5 acts).
  split; [reflexivity|split].
  - exists (skipn 5 acts). symmetry. apply firstn_skipn.
  - apply length_firstn.
Qed.

(** C10. [App] renders the admin dashboard exactly when its view selector is
    "admin" and its authenticated flag is [true]; in particular never while
    that flag is [false]. *)
Theorem dashboard_rendered_iff (s : Session.state) :
  In Session.AdminDashboard (Session.render s) <->
  Session.view s = "admin" /\ Session.root_auth s = true.
Proof.
  unfold Session.render.
  destruct (String.eqb_spec (Session.view s) "public") as [Hp|Hp];
  destruct (String.eqb_spec (Session.view s) "login") as [Hl|Hl];
  destruct (String.eqb_spec (Session.view s) "admin") as [Ha|Ha];
  destruct (Session.root_auth s); simpl;
  try (rewrite Hp in *); try (rewrite Hl in *); try (rewrite Ha in *);
  split; intros H; try discriminate;
  repeat match goal with
         | H : _ \/ _ |- _ => destruct H
         | H : _ /\ _ |- _ => destruct H
         | H : False |- _ => destruct H
         end;
  try discriminate; try congruence; auto.
Qed.

(** ** Further properties of the code *)

Module SessionFacts.
Import Session.

Lemma render_PublicHome (s : state) :
  existsb (fun c => match c with PublicHome => true | _ => false end) (render s) = true ->
  view s = "public".
Proof.
  unfold render.
  destruct (String.eqb_spec (view s) "public"); [auto|].
  destruct (String.eqb (view s) "login"), (String.eqb (view s) "admin" && root_auth s);
    simpl; discriminate.
Qed.

Lemma render_AdminDashboard_view (s : state) :
  In AdminDashboard (render s) -> view s = "admin".
Proof.
  unfold render.
  destruct (String.eqb (view s) "public"), (String.eqb (view s) "login");
  destruct (String.eqb_spec (view s) "admin"); simpl;
  intros H; repeat (destruct H as [H|H]; [discriminate H|]); auto;
  destruct (root_auth s); simpl in H; try destruct H; discriminate.
Qed.

Definition provider_consistent (s : state) : Prop :=
  prov_auth s = truthy (prov_token s).

Lemma handle_provider_consistent (e : event) (s : state) :
  provider_consistent s -> provider_consistent (handle e s).
Proof. destruct e; unfold provider_consistent; simpl; auto. Qed.

Lemma run_preserves (P : state -> Prop) :
  (forall e s, P s -> P (handle e s)) ->
  forall es s, P s -> P (run es s).
Proof.
  intros Hstep es. induction es as [|e es IH]; intros s Hs; simpl; auto.
  apply IH. destruct (enabled e s); auto.
Qed.

(** In every state the application reaches, [AuthProvider]'s flag is the
    truthiness of [AuthProvider]'s token. *)
Theorem provider_flag_matches_token (stored : option string) (es : list event) :
  prov_auth (run es (init stored)) = truthy (prov_token (run es (init stored))).
Proof.
  apply (run_preserves provider_consistent handle_provider_consistent).
  reflexivity.
Qed.

(** Once [App]'s flag is [true], no event sequence makes it [false] again. *)
Theorem root_auth_never_cleared (es : list event) (s : state) :
  root_auth s = true -> root_auth (run es s) = true.
Proof.
  apply (run_preserves (fun s => root_auth s = true)).
  intros [] s' H; simpl; auto.
Qed.

Lemma root_auth_never_cleared_witness :
  root_auth (init (Some "t")) = true /\
  root_auth (run [ClickAdmin; LoginResolved "u"; ClickLogout] (init (Some "t"))) = true.
Proof.
  split; [reflexivity|].
  apply root_auth_never_cleared. reflexivity.
Defined.

(** Once the view has left "public", no event sequence brings it back. *)
Theorem public_view_never_returns (es : list event) (s : state) :
  view s <> "public" -> view (run es s) <> "public".
Proof.
  revert s. induction es as [|e es IH]; intros s Hs; simpl; auto.
  apply IH.
  destruct (enabled e s) eqn:En; auto.
  destruct e; simpl in *; auto.
  - apply render_PublicHome in En. contradiction.
  - discriminate.
Qed.

Lemma public_view_never_returns_witness :
  view (run [ClickAdmin] (init None)) <> "public" /\
  view (run [ClickAdmin] (run [ClickAdmin] (init None))) <> "public".
Proof.
  split; [discriminate|].
  apply public_view_never_returns. discriminate.
Defined.

Lemma run_view_admin (es : list event) (s : state) :
  view (run es s) = "admin" -> view s = "admin" \/ exists t, In (LoginResolved t) es.
Proof.
  revert s. induction es as [|e es IH]; intros s H; simpl in *; auto.
  apply IH in H as [H|[t Ht]]; [|right; exists t; auto].
  destruct (enabled e s); auto.
  destruct e as [|t|]; simpl in H; auto.
  - discriminate.
  - right. exists t. auto.
Qed.

(** Whatever [localStorage] holds at load, the dashboard is only ever
    rendered after a login request has resolved. *)
Theorem dashboard_requires_login (stored : option string) (es : list event) :
  In AdminDashboard (render (run es (init stored))) -> exists t, In (LoginResolved t) es.
Proof.
  intros H. apply render_AdminDashboard_view, run_view_admin in H as [H|H]; auto.
  discriminate.
Qed.

Lemma dashboard_requires_login_witness :
  In AdminDashboard (render (run [ClickAdmin; LoginResolved "t"] (init (Some "t")))) /\
  exists t, In (LoginResolved t) [ClickAdmin; LoginResolved "t"].
Proof.
  split; [vm_compute; auto|].
  apply (dashboard_requires_login (Some "t")). vm_compute. auto.
Defined.

End SessionFacts.

Module PublicHomeFacts.
Import PublicHome.

Definition branch_keys : list string := ["meute"; "troupe"; "compagnie"; "clan"].




Definition is_known_branch (m : Member) : bool :=
  existsb (String.eqb (m_branch m)) branch_keys.

(** The four counts add up to the number of fetched members whose branch is
    one of the four keys; members with any other branch are counted nowhere. *)
Theorem counts_sum (ms : list Member) :
  count_branch "meute" ms + count_branch "troupe" ms +
  count_branch "compagnie" ms + count_branch "clan" ms
  = length (filter is_known_branch ms).
Proof.
  unfold count_branch.
  induction ms as [|m ms IH]; [reflexivity|]. cbn [filter length].
  assert (Hk : is_known_branch m =
               (m_branch m =? "meute") || ((m_branch m =? "troupe") ||
               ((m_branch m =? "compagnie") || ((m_branch m =? "clan") || false))))
    by reflexivity.
  rewrite Hk. destruct m as [i n p a b]; simpl m_branch.
  destruct (String.eqb_spec b "meute"); [subst; simpl; lia|].
  destruct (String.eqb_spec b "troupe"); [subst; simpl; lia|].
  destruct (String.eqb_spec b "compagnie"); [subst; simpl; lia|].
  destruct (String.eqb_spec b "clan"); [subst; simpl; lia|].
  simpl. lia.
Qed.

End PublicHomeFacts.

Module BranchCardFacts.
Import BranchCard.

Definition is_resolved {A} (r : outcome A) : bool :=
  match r with Resolved _ => true | Rejected => false end.

(** Over any sequence of clicks on the members button, every click issues
    exactly one fetch, and the list ends hidden only if it started hidden and
    every fetch failed. *)
Theorem clickMembers_fetch_each (branch : Branch) (rs : list (outcome (list Member)))
  (s : state) :
  length (filter is_fetch (snd (clickMembers branch rs s))) = length rs /\
  showMembers (fst (clickMembers branch rs s)) = showMembers s || existsb is_resolved rs.
Proof.
  revert s. induction rs as [|r rs IH]; intros s; simpl.
  - rewrite orb_false_r. auto.
  - destruct (loadMembers branch r s) as [s1 e1] eqn:E1.
    destruct (clickMembers branch rs s1) as [s2 e2] eqn:E2.
    specialize (IH s1). rewrite E2 in IH. simpl in *. destruct IH as [IH1 IH2].
    unfold loadMembers in E1.
    destruct r; injection E1 as <- <-; simpl in *;
      rewrite ?filter_app, ?length_app; simpl; rewrite ?IH1, ?IH2; split; auto;
      destruct (showMembers s), (existsb is_resolved rs); reflexivity.
Qed.

End BranchCardFacts.

Module LoginFacts.


End LoginFacts.

Module MembersFacts.
Import MembersManagement.






End MembersFacts.

Module ActivitiesFacts.
Import ActivitiesManagement.

Lemma or_null_or_empty (x : option string) :
  x <> Some "" -> or_null (or_empty x) = x.
Proof.
  destruct x as [v|]; simpl; [|reflexivity].
  intros H. unfold or_null. destruct (String.eqb_spec v ""); [subst; contradiction|reflexivity].
Qed.

(** Editing an activity and saving the unchanged form sends an update of
    that activity with its own title, description, branch and organ (a
    missing branch or organ is sent as [null] again) and the date re-read
    from its day part; a missing [lieu] is sent as the empty string. *)
Theorem activity_edit_submit_roundtrip (toISOString : string -> option string)
  (a : Activity) (s : state) (iso iso' : string) :
  toISOString (date_activite a) = Some iso ->
  toISOString (before_T iso) = Some iso' ->
  a_branch a <> Some "" -> organ a <> Some "" ->
  handleSubmit toISOString (Resolved tt) (handleEdit toISOString a s)
  = (mk false None empty_form,
     [Http PUT ("/admin/activities/" ++ a_id a)
        (ActivityData (a_titre a) (description a) iso' (a_branch a) (organ a)
                      (or_empty (lieu a)));
      Refresh]).
Proof.
  intros H1 H2 Hb Ho.
  unfold handleEdit. rewrite H1. unfold handleSubmit. simpl. rewrite H2.
  rewrite !or_null_or_empty by assumption. reflexivity.
Qed.

Definition iso_of_day (d : string) : option string := Some (String.append d "T00:00:00.000Z").

Lemma activity_edit_submit_roundtrip_witness :
  let a := mkActivity "7" "Camp" "Camp d'été" "2024-07-01" (Some "troupe") None None in
  (iso_of_day (date_activite a) = Some "2024-07-01T00:00:00.000Z" /\
   iso_of_day (before_T "2024-07-01T00:00:00.000Z") = Some "2024-07-01T00:00:00.000Z" /\
   a_branch a <> Some "" /\ organ a <> Some "") /\
  handleSubmit iso_of_day (Resolved tt) (handleEdit iso_of_day a (mk false None empty_form))
  = (mk false None empty_form,
     [Http PUT ("/admin/activities/" ++ "7")
        (ActivityData "Camp" "Camp d'été" "2024-07-01T00:00:00.000Z" (Some "troupe") None "");
      Refresh]).
Proof.
  simpl. split; [split; [reflexivity|split; [reflexivity|split; discriminate]]|].
  apply (activity_edit_submit_roundtrip iso_of_day
           (mkActivity "7" "Camp" "Camp d'été" "2024-07-01" (Some "troupe") None None)
           (mk false None empty_form) "2024-07-01T00:00:00.000Z" "2024-07-01T00:00:00.000Z");
    [reflexivity | reflexivity | discriminate | discriminate].
Defined.




End ActivitiesFacts.

Module DashboardFacts.
Import AdminDashboard.

Lemma complete_comm (c1 c2 : completion) (s : state) :
  kind c1 <> kind c2 -> complete c1 (complete c2 s) = complete c2 (complete c1 s).
Proof.
  intros Hk.
  destruct c1 as [[]|[]|[]|[]], c2 as [[]|[]|[]|[]]; simpl in *;
    try reflexivity; contradiction.
Qed.

Lemma run_permutation (l1 l2 : list completion) (s : state) :
  Permutation l1 l2 -> NoDup (map kind l1) -> run l1 s = run l2 s.
Proof.
  intros HP. revert s. induction HP as [|x l l' HP IH|y x l|l l' l'' HP1 IH1 HP2 IH2];
    intros s Hnd; simpl in *.
  - reflexivity.
  - inversion Hnd; subst. apply IH. assumption.
  - inversion Hnd as [|? ? Hy Hnd']; subst.
    rewrite complete_comm; [reflexivity|].
    intros E. apply Hy. rewrite E. left. reflexivity.
  - rewrite IH1 by assumption. apply IH2.
    eapply Permutation_NoDup; [apply Permutation_map; exact HP1|assumption].
Qed.

(** Whatever order the four requests of the dashboard's mount effect
    complete in, each state cell ends holding its own response when that
    request resolved and its initial value when it was rejected: one failed
    request never affects the others. *)
Theorem mount_any_order (rs : outcome PublicHome.counts) (rm : outcome (list Member))
  (ra : outcome (list Activity)) (rp : outcome Project) (l : list completion) :
  Permutation l [CStats rs; CMembers rm; CActivities ra; CProject rp] ->
  run l init
  = mk "dashboard"
       (match rs with Resolved d => Some d | Rejected => None end)
       (or_keep rm []) (or_keep ra []) (or_keep rp (mkProject "" "")).
Proof.
  intros HP.
  rewrite (run_permutation l [CStats rs; CMembers rm; CActivities ra; CProject rp]).
  - destruct rs, rm, ra, rp; reflexivity.
  - exact HP.
  - eapply Permutation_NoDup; [apply Permutation_map; symmetry; exact HP|].
    simpl. repeat constructor; simpl; intuition discriminate.
Qed.

Lemma mount_any_order_witness :
  Permutation (rev [CStats Rejected; CMembers (Resolved []); CActivities Rejected;
                    CProject (Resolved (mkProject "P" "c"))])
              [CStats Rejected; CMembers (Resolved []); CActivities Rejected;
               CProject (Resolved (mkProject "P" "c"))] /\
  run (rev [CStats Rejected; CMembers (Resolved []); CActivities Rejected;
            CProject (Resolved (mkProject "P" "c"))]) init
  = mk "dashboard" None [] [] (mkProject "P" "c").
Proof.
  split; [apply Permutation_rev|].
  apply (mount_any_order Rejected (Resolved []) Rejected (Resolved (mkProject "P" "c"))).
  apply Permutation_rev.
Defined.

End DashboardFacts.

Module ProjectFacts.
Import ProjectManagement.


End ProjectFacts.
